(** * Session write model of zitadel: replay of session events

    Shallow embedding of [internal/command/session_model.go]: the
    [SessionWriteModel] projection, its [Reduce] fold over the pending
    events, the event query it builds and the two derived facts
    [AuthenticationTime] and [AuthMethodTypes]. *)

From Stdlib Require Import ZArith List Bool.
From stdpp Require Import base gmap strings list.
Import ListNotations.
Local Open Scope string_scope.
Local Open Scope list_scope.
Local Open Scope Z_scope.

(** ** Package [time]

    A [time.Time] is identified with its instant on the time line,
    counted in nanoseconds from the zero Time (January 1, year 1, UTC).
    Go's Time also represents instants before the zero Time, hence [Z]
    and not [N]; [After] and [IsZero] only look at the instant. *)
Module time.

Definition Time : Type := Z.

(** [time.Time{}], the value of a declared but unassigned Time. *)
Definition zero : Time := 0.

(** [t.After(u)]: t is strictly later than u. *)
Definition After (t u : Time) : bool := u <? t.

(** [t.IsZero()]. *)
Definition IsZero (t : Time) : bool := t =? 0.

End time.

(** ** Package [domain]: the enumerations the write model refers to.

    The constants are the ones that the write model names, together
    with the zero value of each enumeration. *)
Module domain.

(** [SessionStateUnspecified] is the state of a model that no event has
    touched. *)
Inductive SessionState : Type :=
| SessionStateUnspecified
| SessionStateActive
| SessionStateTerminated.

(** The kinds of authentication method; [AuthMethodTypes] appends five
    of them, the two OTP kinds are reserved for checks to come. *)
Inductive UserAuthMethodType : Type :=
| UserAuthMethodTypeUnspecified
| UserAuthMethodTypeTOTP
| UserAuthMethodTypeU2F
| UserAuthMethodTypePasswordless
| UserAuthMethodTypePassword
| UserAuthMethodTypeIDP
| UserAuthMethodTypeOTPSMS
| UserAuthMethodTypeOTPEmail.

(** The requirement is only copied from an event into the challenge;
    it is kept as the number of the enumeration value. *)
Definition UserVerificationRequirement : Type := Z.

(** The user who logs in.  [WebAuthNLogin] reads the object root of the
    user and copies it as it is, so its type is left open. *)
Record Human (ObjectRoot : Type) : Type := mkHuman {
  Human_ObjectRoot : ObjectRoot
}.

(** The login request handed to the WebAuthN verification, with the
    fields that the composite literal of [WebAuthNLogin] sets. *)
Record WebAuthNLogin (ObjectRoot : Type) : Type := mkWebAuthNLogin {
  Login_ObjectRoot : ObjectRoot;
  Login_CredentialAssertionData : list Byte.byte;
  Login_Challenge : string;
  Login_AllowedCredentialIDs : list (list Byte.byte);
  Login_UserVerification : UserVerificationRequirement;
  Login_RPID : string
}.

Arguments mkHuman {ObjectRoot} _.
Arguments Human_ObjectRoot {ObjectRoot} _.
Arguments mkWebAuthNLogin {ObjectRoot} _ _ _ _ _ _.
Arguments Login_ObjectRoot {ObjectRoot} _.
Arguments Login_CredentialAssertionData {ObjectRoot} _.
Arguments Login_Challenge {ObjectRoot} _.
Arguments Login_AllowedCredentialIDs {ObjectRoot} _.
Arguments Login_UserVerification {ObjectRoot} _.
Arguments Login_RPID {ObjectRoot} _.

End domain.

(** ** Package [session]: the session events and their type names.

    An event is kept with the fields of its payload that the reducers
    read. *)
Module session.

Record AddedEvent : Type := mkAddedEvent { }.

Record UserCheckedEvent : Type := mkUserCheckedEvent {
  UserChecked_UserID : string;
  UserChecked_CheckedAt : time.Time
}.

Record PasswordCheckedEvent : Type := mkPasswordCheckedEvent {
  PasswordChecked_CheckedAt : time.Time
}.

Record IntentCheckedEvent : Type := mkIntentCheckedEvent {
  IntentChecked_CheckedAt : time.Time
}.

Record WebAuthNChallengedEvent : Type := mkWebAuthNChallengedEvent {
  Challenged_Challenge : string;
  Challenged_AllowedCrentialIDs : list (list Byte.byte);
  Challenged_UserVerification : domain.UserVerificationRequirement;
  Challenged_RPID : string
}.

Record WebAuthNCheckedEvent : Type := mkWebAuthNCheckedEvent {
  WebAuthNChecked_CheckedAt : time.Time;
  WebAuthNChecked_UserVerified : bool
}.

Record TOTPCheckedEvent : Type := mkTOTPCheckedEvent {
  TOTPChecked_CheckedAt : time.Time
}.

Record TokenSetEvent : Type := mkTokenSetEvent {
  TokenSet_TokenID : string
}.

(** Modelled from the spec: the payload of a metadata-set event, which
    no reducer reads; it carries the key to opaque-bytes pairs to
    upsert into the metadata map. *)
Record MetadataSetEvent : Type := mkMetadataSetEvent {
  MetadataSet_Metadata : gmap string (list Byte.byte)
}.

Record TerminateEvent : Type := mkTerminateEvent { }.

(** The ten event type names of the session aggregate, as named
    constants. *)
Inductive EventType : Type :=
| AddedType
| UserCheckedType
| PasswordCheckedType
| IntentCheckedType
| WebAuthNChallengedType
| WebAuthNCheckedType
| TOTPCheckedType
| TokenSetType
| MetadataSetType
| TerminateType.

(** Modelled from the spec: the aggregate type of a session stream,
    [type = "session"]. *)
Definition AggregateType : string := "session".

End session.

(** ** Package [eventstore] *)
Module eventstore.

(** The [Event] interface, closed over the dynamic types that
    [Reduce] distinguishes; an event of a session type is a non-nil
    pointer to its payload, and [OtherEvent] stands for a value of any
    other Go type. *)
Inductive Event : Type :=
| Added (e : session.AddedEvent)
| UserChecked (e : session.UserCheckedEvent)
| PasswordChecked (e : session.PasswordCheckedEvent)
| IntentChecked (e : session.IntentCheckedEvent)
| WebAuthNChallenged (e : session.WebAuthNChallengedEvent)
| WebAuthNChecked (e : session.WebAuthNCheckedEvent)
| TOTPChecked (e : session.TOTPCheckedEvent)
| TokenSet (e : session.TokenSetEvent)
| MetadataSet (e : session.MetadataSetEvent)
| Terminate (e : session.TerminateEvent)
| OtherEvent (typ : string).

(** The fields of the base write model that the session model reads
    or initialises. *)
Record WriteModel : Type := mkWriteModel {
  AggregateID : string;
  ResourceOwner : string;
  Events : list Event
}.

(** Modelled from the spec: the aggregate identity, a (type, id,
    owner) triple. *)
Record Aggregate : Type := mkAggregate {
  Aggregate_Type : string;
  Aggregate_ID : string;
  Aggregate_ResourceOwner : string
}.

(** The columns that a search returns; [Query] asks for whole events. *)
Inductive Columns : Type :=
| ColumnsEvent.

(** Modelled from the spec: what one sub-query of a search restricts,
    the aggregate types, the aggregate ids and the event types. *)
Record Filter : Type := mkFilter {
  aggregateTypes : list string;
  aggregateIDs : list string;
  eventTypes : list session.EventType
}.

(** Modelled from the spec: the search query builder, as the record of
    what its setters were called with: the columns, the resource owner
    filter ([None] as long as the setter was not called, which means no
    owner filter) and the sub-queries added so far. *)
Record SearchQueryBuilder : Type := mkSearchQueryBuilder {
  columns : Columns;
  resourceOwner : option string;
  queries : list Filter
}.

(** Modelled from the spec: a sub-query under construction; it keeps
    the builder it belongs to, to which [Builder] returns. *)
Record SearchQuery : Type := mkSearchQuery {
  builder : SearchQueryBuilder;
  query_filter : Filter
}.

(** Modelled from the spec: a new builder has no owner filter and no
    sub-query. *)
Definition NewSearchQueryBuilder (c : Columns) : SearchQueryBuilder :=
  mkSearchQueryBuilder c None [].

(** Modelled from the spec: [AddQuery] opens a sub-query without
    restrictions. *)
Definition AddQuery (b : SearchQueryBuilder) : SearchQuery :=
  mkSearchQuery b (mkFilter [] [] []).

(** Modelled from the spec: the three setters of a sub-query, each
    replacing one restriction. *)
Definition AggregateTypes (ts : list string) (q : SearchQuery) : SearchQuery :=
  mkSearchQuery (builder q)
    (mkFilter ts (aggregateIDs (query_filter q)) (eventTypes (query_filter q))).

Definition AggregateIDs (ids : list string) (q : SearchQuery) : SearchQuery :=
  mkSearchQuery (builder q)
    (mkFilter (aggregateTypes (query_filter q)) ids (eventTypes (query_filter q))).

Definition EventTypes (ts : list session.EventType) (q : SearchQuery) : SearchQuery :=
  mkSearchQuery (builder q)
    (mkFilter (aggregateTypes (query_filter q)) (aggregateIDs (query_filter q)) ts).

(** Modelled from the spec: [Builder] goes back to the builder, which
    now holds the sub-query. *)
Definition Builder (q : SearchQuery) : SearchQueryBuilder :=
  mkSearchQueryBuilder (columns (builder q)) (resourceOwner (builder q))
    (queries (builder q) ++ [query_filter q]).

(** Modelled from the spec: the builder's [ResourceOwner] setter, which
    adds the equality filter on the resource owner (the name
    [ResourceOwner] is taken by the field of [WriteModel]). *)
Definition SetResourceOwner (ro : string) (b : SearchQueryBuilder) : SearchQueryBuilder :=
  mkSearchQueryBuilder (columns b) (Some ro) (queries b).

End eventstore.

Import time domain session eventstore.

(** ** Package [command]: the session write model *)

Record WebAuthNChallengeModel : Type := mkWebAuthNChallengeModel {
  Challenge : string;
  AllowedCrentialIDs : list (list Byte.byte);
  UserVerification : UserVerificationRequirement;
  RPID : string
}.

(** The method [WebAuthNLogin] of the challenge model; both the
    receiver and the user are non-nil pointers. *)
Definition WebAuthNLogin {ObjectRoot : Type} (p : WebAuthNChallengeModel)
    (human : Human ObjectRoot) (credentialAssertionData : list Byte.byte)
    : domain.WebAuthNLogin ObjectRoot :=
  {| Login_ObjectRoot := Human_ObjectRoot human;
     Login_CredentialAssertionData := credentialAssertionData;
     Login_Challenge := Challenge p;
     Login_AllowedCredentialIDs := AllowedCrentialIDs p;
     Login_UserVerification := UserVerification p;
     Login_RPID := RPID p |}.

Record SessionWriteModel : Type := mkSessionWriteModel {
  WriteModel_ : WriteModel;
  TokenID : string;
  UserID : string;
  UserCheckedAt : Time;
  PasswordCheckedAt : Time;
  IntentCheckedAt : Time;
  WebAuthNCheckedAt : Time;
  TOTPCheckedAt : Time;
  WebAuthNUserVerified : bool;
  Metadata : gmap string (list Byte.byte);
  State : SessionState;
  WebAuthNChallenge : option WebAuthNChallengeModel;
  aggregate : Aggregate
}.

(** Assignments to single fields of the model. *)
Definition set_WriteModel (b : WriteModel) (wm : SessionWriteModel) : SessionWriteModel :=
  mkSessionWriteModel b (TokenID wm) (UserID wm) (UserCheckedAt wm)
    (PasswordCheckedAt wm) (IntentCheckedAt wm) (WebAuthNCheckedAt wm)
    (TOTPCheckedAt wm) (WebAuthNUserVerified wm) (Metadata wm) (State wm)
    (WebAuthNChallenge wm) (aggregate wm).

Definition set_TokenID (x : string) (wm : SessionWriteModel) : SessionWriteModel :=
  mkSessionWriteModel (WriteModel_ wm) x (UserID wm) (UserCheckedAt wm)
    (PasswordCheckedAt wm) (IntentCheckedAt wm) (WebAuthNCheckedAt wm)
    (TOTPCheckedAt wm) (WebAuthNUserVerified wm) (Metadata wm) (State wm)
    (WebAuthNChallenge wm) (aggregate wm).

Definition set_UserID (x : string) (wm : SessionWriteModel) : SessionWriteModel :=
  mkSessionWriteModel (WriteModel_ wm) (TokenID wm) x (UserCheckedAt wm)
    (PasswordCheckedAt wm) (IntentCheckedAt wm) (WebAuthNCheckedAt wm)
    (TOTPCheckedAt wm) (WebAuthNUserVerified wm) (Metadata wm) (State wm)
    (WebAuthNChallenge wm) (aggregate wm).

Definition set_UserCheckedAt (x : Time) (wm : SessionWriteModel) : SessionWriteModel :=
  mkSessionWriteModel (WriteModel_ wm) (TokenID wm) (UserID wm) x
    (PasswordCheckedAt wm) (IntentCheckedAt wm) (WebAuthNCheckedAt wm)
    (TOTPCheckedAt wm) (WebAuthNUserVerified wm) (Metadata wm) (State wm)
    (WebAuthNChallenge wm) (aggregate wm).

Definition set_PasswordCheckedAt (x : Time) (wm : SessionWriteModel) : SessionWriteModel :=
  mkSessionWriteModel (WriteModel_ wm) (TokenID wm) (UserID wm) (UserCheckedAt wm)
    x (IntentCheckedAt wm) (WebAuthNCheckedAt wm)
    (TOTPCheckedAt wm) (WebAuthNUserVerified wm) (Metadata wm) (State wm)
    (WebAuthNChallenge wm) (aggregate wm).

Definition set_IntentCheckedAt (x : Time) (wm : SessionWriteModel) : SessionWriteModel :=
  mkSessionWriteModel (WriteModel_ wm) (TokenID wm) (UserID wm) (UserCheckedAt wm)
    (PasswordCheckedAt wm) x (WebAuthNCheckedAt wm)
    (TOTPCheckedAt wm) (WebAuthNUserVerified wm) (Metadata wm) (State wm)
    (WebAuthNChallenge wm) (aggregate wm).

Definition set_WebAuthNCheckedAt (x : Time) (wm : SessionWriteModel) : SessionWriteModel :=
  mkSessionWriteModel (WriteModel_ wm) (TokenID wm) (UserID wm) (UserCheckedAt wm)
    (PasswordCheckedAt wm) (IntentCheckedAt wm) x
    (TOTPCheckedAt wm) (WebAuthNUserVerified wm) (Metadata wm) (State wm)
    (WebAuthNChallenge wm) (aggregate wm).

Definition set_TOTPCheckedAt (x : Time) (wm : SessionWriteModel) : SessionWriteModel :=
  mkSessionWriteModel (WriteModel_ wm) (TokenID wm) (UserID wm) (UserCheckedAt wm)
    (PasswordCheckedAt wm) (IntentCheckedAt wm) (WebAuthNCheckedAt wm)
    x (WebAuthNUserVerified wm) (Metadata wm) (State wm)
    (WebAuthNChallenge wm) (aggregate wm).

Definition set_WebAuthNUserVerified (x : bool) (wm : SessionWriteModel) : SessionWriteModel :=
  mkSessionWriteModel (WriteModel_ wm) (TokenID wm) (UserID wm) (UserCheckedAt wm)
    (PasswordCheckedAt wm) (IntentCheckedAt wm) (WebAuthNCheckedAt wm)
    (TOTPCheckedAt wm) x (Metadata wm) (State wm)
    (WebAuthNChallenge wm) (aggregate wm).

Definition set_State (x : SessionState) (wm : SessionWriteModel) : SessionWriteModel :=
  mkSessionWriteModel (WriteModel_ wm) (TokenID wm) (UserID wm) (UserCheckedAt wm)
    (PasswordCheckedAt wm) (IntentCheckedAt wm) (WebAuthNCheckedAt wm)
    (TOTPCheckedAt wm) (WebAuthNUserVerified wm) (Metadata wm) x
    (WebAuthNChallenge wm) (aggregate wm).

Definition set_WebAuthNChallenge (x : option WebAuthNChallengeModel)
    (wm : SessionWriteModel) : SessionWriteModel :=
  mkSessionWriteModel (WriteModel_ wm) (TokenID wm) (UserID wm) (UserCheckedAt wm)
    (PasswordCheckedAt wm) (IntentCheckedAt wm) (WebAuthNCheckedAt wm)
    (TOTPCheckedAt wm) (WebAuthNUserVerified wm) (Metadata wm) (State wm)
    x (aggregate wm).

(** Modelled from the spec: [session.NewAggregate], which builds the
    identity triple of a session. *)
Definition NewAggregate (id resourceOwner : string) : Aggregate :=
  mkAggregate AggregateType id resourceOwner.

(** Fields that the composite literal leaves out hold their zero
    values. *)
Definition NewSessionWriteModel (sessionID resourceOwner : string) : SessionWriteModel :=
  {| WriteModel_ := {| AggregateID := sessionID;
                       ResourceOwner := resourceOwner;
                       Events := [] |};
     TokenID := "";
     UserID := "";
     UserCheckedAt := time.zero;
     PasswordCheckedAt := time.zero;
     IntentCheckedAt := time.zero;
     WebAuthNCheckedAt := time.zero;
     TOTPCheckedAt := time.zero;
     WebAuthNUserVerified := false;
     Metadata := ∅;
     State := SessionStateUnspecified;
     WebAuthNChallenge := None;
     aggregate := NewAggregate sessionID resourceOwner |}.

(** *** The reducers, one per event type *)

Definition reduceAdded (e : AddedEvent) (wm : SessionWriteModel) : SessionWriteModel :=
  set_State SessionStateActive wm.

Definition reduceUserChecked (e : UserCheckedEvent) (wm : SessionWriteModel) : SessionWriteModel :=
  let wm := set_UserID (UserChecked_UserID e) wm in
  set_UserCheckedAt (UserChecked_CheckedAt e) wm.

Definition reducePasswordChecked (e : PasswordCheckedEvent) (wm : SessionWriteModel)
    : SessionWriteModel :=
  set_PasswordCheckedAt (PasswordChecked_CheckedAt e) wm.

Definition reduceIntentChecked (e : IntentCheckedEvent) (wm : SessionWriteModel)
    : SessionWriteModel :=
  set_IntentCheckedAt (IntentChecked_CheckedAt e) wm.

Definition reduceWebAuthNChallenged (e : WebAuthNChallengedEvent) (wm : SessionWriteModel)
    : SessionWriteModel :=
  set_WebAuthNChallenge
    (Some {| Challenge := Challenged_Challenge e;
             AllowedCrentialIDs := Challenged_AllowedCrentialIDs e;
             UserVerification := Challenged_UserVerification e;
             RPID := Challenged_RPID e |}) wm.

Definition reduceWebAuthNChecked (e : WebAuthNCheckedEvent) (wm : SessionWriteModel)
    : SessionWriteModel :=
  let wm := set_WebAuthNChallenge None wm in
  let wm := set_WebAuthNCheckedAt (WebAuthNChecked_CheckedAt e) wm in
  set_WebAuthNUserVerified (WebAuthNChecked_UserVerified e) wm.

Definition reduceTOTPChecked (e : TOTPCheckedEvent) (wm : SessionWriteModel)
    : SessionWriteModel :=
  set_TOTPCheckedAt (TOTPChecked_CheckedAt e) wm.

Definition reduceTokenSet (e : TokenSetEvent) (wm : SessionWriteModel) : SessionWriteModel :=
  set_TokenID (TokenSet_TokenID e) wm.

Definition reduceTerminate (wm : SessionWriteModel) : SessionWriteModel :=
  set_State SessionStateTerminated wm.

(** The body of the loop of [Reduce]: the type switch.  It has no case
    for [*session.MetadataSetEvent], which therefore falls through like
    an event of any other type. *)
Definition reduceEvent (wm : SessionWriteModel) (event : Event) : SessionWriteModel :=
  match event with
  | Added e => reduceAdded e wm
  | UserChecked e => reduceUserChecked e wm
  | PasswordChecked e => reducePasswordChecked e wm
  | IntentChecked e => reduceIntentChecked e wm
  | WebAuthNChallenged e => reduceWebAuthNChallenged e wm
  | WebAuthNChecked e => reduceWebAuthNChecked e wm
  | TOTPChecked e => reduceTOTPChecked e wm
  | TokenSet e => reduceTokenSet e wm
  | Terminate _ => reduceTerminate wm
  | MetadataSet _ | OtherEvent _ => wm
  end.

(** [for _, event := range wm.Events { ... }] *)
Definition reduceEvents (events : list Event) (wm : SessionWriteModel) : SessionWriteModel :=
  fold_left reduceEvent events wm.

Section Reduce.

(** [WriteModel.Reduce] of package eventstore is taken as a parameter.
    Its receiver is the embedded base model, so it reads and writes
    that part only, and it returns an error or nil. *)
Context {Err : Type}.
Variable WriteModel_Reduce : WriteModel -> WriteModel * option Err.

Definition Reduce (wm : SessionWriteModel) : SessionWriteModel * option Err :=
  let wm := reduceEvents (Events (WriteModel_ wm)) wm in
  let '(base, err) := WriteModel_Reduce (WriteModel_ wm) in
  (set_WriteModel base wm, err).

(** The model with [events] as its pending events. *)
Definition withEvents (events : list Event) (wm : SessionWriteModel) : SessionWriteModel :=
  set_WriteModel
    {| AggregateID := AggregateID (WriteModel_ wm);
       ResourceOwner := ResourceOwner (WriteModel_ wm);
       Events := events |} wm.

(** The projection after folding [events] into [wm]: the events are
    made the pending events of the model and [Reduce] is run. *)
Definition replay (events : list Event) (wm : SessionWriteModel) : SessionWriteModel :=
  fst (Reduce (withEvents events wm)).

End Reduce.

(** Modelled from the spec: [WriteModel.Reduce] of the base write model.
    The spec gives it one effect, advancing the tracked position marker,
    which is not among the fields kept in [WriteModel]; on those it
    changes nothing, and it reports no error. *)
Definition baseReduce (b : WriteModel) : WriteModel * option string := (b, None).

Definition Query (wm : SessionWriteModel) : SearchQueryBuilder :=
  let query :=
    Builder
      (EventTypes
         [AddedType; UserCheckedType; PasswordCheckedType; IntentCheckedType;
          WebAuthNChallengedType; WebAuthNCheckedType; TOTPCheckedType;
          TokenSetType; MetadataSetType; TerminateType]
         (AggregateIDs [AggregateID (WriteModel_ wm)]
            (AggregateTypes [AggregateType]
               (AddQuery (NewSearchQueryBuilder ColumnsEvent))))) in
  if negb (String.eqb (ResourceOwner (WriteModel_ wm)) "")
  then SetResourceOwner (ResourceOwner (WriteModel_ wm)) query
  else query.

(** AuthenticationTime returns the time the user authenticated using the
    latest time of all checks. *)
Definition AuthenticationTime (wm : SessionWriteModel) : Time :=
  fold_left
    (fun authTime check => if After check authTime then check else authTime)
    [PasswordCheckedAt wm; WebAuthNCheckedAt wm; TOTPCheckedAt wm; IntentCheckedAt wm]
    time.zero.

(** AuthMethodTypes returns a list of UserAuthMethodTypes based on
    succeeded checks. *)
Definition AuthMethodTypes (wm : SessionWriteModel) : list UserAuthMethodType :=
  let types : list UserAuthMethodType := [] in
  let types :=
    if negb (IsZero (PasswordCheckedAt wm))
    then types ++ [UserAuthMethodTypePassword] else types in
  let types :=
    if negb (IsZero (WebAuthNCheckedAt wm))
    then (if WebAuthNUserVerified wm
          then types ++ [UserAuthMethodTypePasswordless]
          else types ++ [UserAuthMethodTypeU2F])
    else types in
  let types :=
    if negb (IsZero (IntentCheckedAt wm))
    then types ++ [UserAuthMethodTypeIDP] else types in
  let types :=
    if negb (IsZero (TOTPCheckedAt wm))
    then types ++ [UserAuthMethodTypeTOTP] else types in
  types.

(** ** Vocabulary of the properties *)

Definition isUserChecked (event : Event) : bool :=
  match event with
  | UserChecked _ => true
  | _ => false
  end.

(** The latest of the four check times that count for authentication. *)
Definition latestCheck (wm : SessionWriteModel) : Time :=
  Z.max (Z.max (Z.max (PasswordCheckedAt wm) (WebAuthNCheckedAt wm)) (TOTPCheckedAt wm))
        (IntentCheckedAt wm).

(** A check event does not move its timestamp backwards: its check time
    is not earlier than the timestamp of the same kind that [wm] holds.
    Events of the other kinds are not concerned. *)
Definition notEarlier (wm : SessionWriteModel) (event : Event) : Prop :=
  match event with
  | PasswordChecked e => PasswordCheckedAt wm <= PasswordChecked_CheckedAt e
  | WebAuthNChecked e => WebAuthNCheckedAt wm <= WebAuthNChecked_CheckedAt e
  | TOTPChecked e => TOTPCheckedAt wm <= TOTPChecked_CheckedAt e
  | IntentChecked e => IntentCheckedAt wm <= IntentChecked_CheckedAt e
  | _ => True
  end.

(** The authenticated factors in the words of the specification: of the
    kinds in the order password, webauthn (passwordless when the user
    was verified, security key otherwise), intent, totp, those whose
    check timestamp is not zero. *)
Definition factorChecked (wm : SessionWriteModel) (kind : UserAuthMethodType) : bool :=
  match kind with
  | UserAuthMethodTypePassword => negb (IsZero (PasswordCheckedAt wm))
  | UserAuthMethodTypePasswordless =>
      negb (IsZero (WebAuthNCheckedAt wm)) && WebAuthNUserVerified wm
  | UserAuthMethodTypeU2F =>
      negb (IsZero (WebAuthNCheckedAt wm)) && negb (WebAuthNUserVerified wm)
  | UserAuthMethodTypeIDP => negb (IsZero (IntentCheckedAt wm))
  | UserAuthMethodTypeTOTP => negb (IsZero (TOTPCheckedAt wm))
  | _ => false
  end.

Definition AuthenticatedFactors_spec (wm : SessionWriteModel) : list UserAuthMethodType :=
  List.filter (factorChecked wm)
    [UserAuthMethodTypePassword; UserAuthMethodTypePasswordless; UserAuthMethodTypeU2F;
     UserAuthMethodTypeIDP; UserAuthMethodTypeTOTP].

(** The one sub-query that [Query] is to hold for the model [wm]. *)
Definition sessionFilter (wm : SessionWriteModel) : Filter :=
  {| aggregateTypes := [AggregateType];
     aggregateIDs := [AggregateID (WriteModel_ wm)];
     eventTypes :=
       [AddedType; UserCheckedType; PasswordCheckedType; IntentCheckedType;
        WebAuthNChallengedType; WebAuthNCheckedType; TOTPCheckedType;
        TokenSetType; MetadataSetType; TerminateType] |}.

(** Two models agree on the session: they are equal but for the
    embedded base model. *)
Definition sameSession (s1 s2 : SessionWriteModel) : Prop :=
  forall b : WriteModel, set_WriteModel b s1 = set_WriteModel b s2.

(** The events for which the type switch of [Reduce] has a case. *)
Definition isFolded (event : Event) : bool :=
  match event with
  | MetadataSet _ | OtherEvent _ => false
  | _ => true
  end.

Definition isTokenSet (event : Event) : bool :=
  match event with
  | TokenSet _ => true
  | _ => false
  end.

(** The events that write the state of the session. *)
Definition isLifecycle (event : Event) : bool :=
  match event with
  | Added _ | Terminate _ => true
  | _ => false
  end.

(** The events of the WebAuthN handshake, which write the challenge. *)
Definition isWebAuthNStep (event : Event) : bool :=
  match event with
  | WebAuthNChallenged _ | WebAuthNChecked _ => true
  | _ => false
  end.

(** The four checks that count for authentication. *)
Definition isAuthCheck (event : Event) : bool :=
  match event with
  | PasswordChecked _ | WebAuthNChecked _ | TOTPChecked _ | IntentChecked _ => true
  | _ => false
  end.

(** The five kinds of check, the check that an event carries with its
    check time, and the timestamp that the model keeps per kind. *)
Inductive CheckKind : Type :=
| UserCheck
| PasswordCheck
| IntentCheck
| WebAuthNCheck
| TOTPCheck.

Definition checkOf (event : Event) : option (CheckKind * Time) :=
  match event with
  | UserChecked e => Some (UserCheck, UserChecked_CheckedAt e)
  | PasswordChecked e => Some (PasswordCheck, PasswordChecked_CheckedAt e)
  | IntentChecked e => Some (IntentCheck, IntentChecked_CheckedAt e)
  | WebAuthNChecked e => Some (WebAuthNCheck, WebAuthNChecked_CheckedAt e)
  | TOTPChecked e => Some (TOTPCheck, TOTPChecked_CheckedAt e)
  | _ => None
  end.

Definition isCheckOf (kind : CheckKind) (event : Event) : bool :=
  match checkOf event, kind with
  | Some (UserCheck, _), UserCheck
  | Some (PasswordCheck, _), PasswordCheck
  | Some (IntentCheck, _), IntentCheck
  | Some (WebAuthNCheck, _), WebAuthNCheck
  | Some (TOTPCheck, _), TOTPCheck => true
  | _, _ => false
  end.

Definition checkedAt (kind : CheckKind) (wm : SessionWriteModel) : Time :=
  match kind with
  | UserCheck => UserCheckedAt wm
  | PasswordCheck => PasswordCheckedAt wm
  | IntentCheck => IntentCheckedAt wm
  | WebAuthNCheck => WebAuthNCheckedAt wm
  | TOTPCheck => TOTPCheckedAt wm
  end.

(** The part of the model that an event writes: the state, the user
    (id and check time), one of the check timestamps, the WebAuthN part
    (challenge, check time, user verification) or the token.  Events
    without a case in [Reduce] write nothing. *)
Inductive Part : Type :=
| StatePart
| UserPart
| PasswordPart
| IntentPart
| WebAuthNPart
| TOTPPart
| TokenPart.

Definition writes (event : Event) : option Part :=
  match event with
  | Added _ | Terminate _ => Some StatePart
  | UserChecked _ => Some UserPart
  | PasswordChecked _ => Some PasswordPart
  | IntentChecked _ => Some IntentPart
  | WebAuthNChallenged _ | WebAuthNChecked _ => Some WebAuthNPart
  | TOTPChecked _ => Some TOTPPart
  | TokenSet _ => Some TokenPart
  | MetadataSet _ | OtherEvent _ => None
  end.

(** ** The fold *)

Lemma reduceEvents_app (es1 es2 : list Event) (wm : SessionWriteModel) :
  reduceEvents (es1 ++ es2) wm = reduceEvents es2 (reduceEvents es1 wm).
Proof. unfold reduceEvents. apply fold_left_app. Qed.

Lemma reduceEvents_snoc (es : list Event) (e : Event) (wm : SessionWriteModel) :
  reduceEvents (es ++ [e]) wm = reduceEvent (reduceEvents es wm) e.
Proof. now rewrite reduceEvents_app. Qed.

(** No reducer touches the embedded base model. *)
Lemma reduceEvent_set_WriteModel (b : WriteModel) (wm : SessionWriteModel) (e : Event) :
  reduceEvent (set_WriteModel b wm) e = set_WriteModel b (reduceEvent wm e).
Proof. destruct e; reflexivity. Qed.

Lemma reduceEvents_set_WriteModel (b : WriteModel) (es : list Event) :
  forall wm, reduceEvents es (set_WriteModel b wm) = set_WriteModel b (reduceEvents es wm).
Proof.
  induction es as [|e es IH]; intros wm; [reflexivity|].
  cbn [reduceEvents fold_left] in *.
  rewrite reduceEvent_set_WriteModel. apply IH.
Qed.

Section ReplayFacts.

Context {Err : Type}.
Variable R : WriteModel -> WriteModel * option Err.

(** [Reduce] is the fold of the pending events, followed by the base
    model's own [Reduce] on the embedded part. *)
Lemma replay_fold (es : list Event) (wm : SessionWriteModel) :
  exists b, replay R es wm = set_WriteModel b (reduceEvents es wm).
Proof.
  unfold replay, Reduce, withEvents.
  cbn [WriteModel_ Events set_WriteModel].
  rewrite reduceEvents_set_WriteModel.
  destruct (R _) as [b err].
  exists b. reflexivity.
Qed.

End ReplayFacts.

(** Reads a field of the session part of [replay] off the fold. *)
Ltac replay_to_fold R es wm :=
  let b := fresh "b" in
  let Hb := fresh "Hb" in
  destruct (replay_fold R es wm) as [b Hb]; rewrite Hb; clear Hb;
  cbn [set_WriteModel TokenID UserID UserCheckedAt PasswordCheckedAt IntentCheckedAt
       WebAuthNCheckedAt TOTPCheckedAt WebAuthNUserVerified Metadata State
       WebAuthNChallenge aggregate].

(** ** The user of the session *)

Lemma reduceEvent_UserID_kept (wm : SessionWriteModel) (e : Event) :
  isUserChecked e = false -> UserID (reduceEvent wm e) = UserID wm.
Proof. destruct e; cbn; congruence. Qed.

Lemma reduceEvents_UserID_kept (es : list Event) :
  forall wm,
    Forall (fun e => isUserChecked e = false) es ->
    UserID (reduceEvents es wm) = UserID wm.
Proof.
  induction es as [|e es IH]; intros wm Hes; [reflexivity|].
  inversion Hes as [|? ? He Hes']; subst.
  cbn [reduceEvents fold_left] in *.
  rewrite IH by assumption.
  now apply reduceEvent_UserID_kept.
Qed.

(** C1 (as amended): the user of the session is last-writer-wins.  After
    folding a sequence that holds a user-checked event, [UserID] is the
    user carried by the last user-checked event in replay order,
    whatever came before it. *)
Theorem UserID_last_writer_wins
    {Err : Type} (R : WriteModel -> WriteModel * option Err)
    (before after : list Event) (e : UserCheckedEvent) (wm : SessionWriteModel) :
  Forall (fun ev => isUserChecked ev = false) after ->
  UserID (replay R (before ++ UserChecked e :: after) wm) = UserChecked_UserID e.
Proof.
  intros Hafter.
  replay_to_fold R (before ++ UserChecked e :: after) wm.
  rewrite reduceEvents_app.
  change (reduceEvents (UserChecked e :: after) ?s)
    with (reduceEvents after (reduceUserChecked e s)).
  now rewrite reduceEvents_UserID_kept.
Qed.

Lemma UserID_last_writer_wins_witness :
  Forall (fun ev => isUserChecked ev = false)
         [PasswordChecked (mkPasswordCheckedEvent 300)]
  /\ UserID (replay baseReduce
            ([Added mkAddedEvent; UserChecked (mkUserCheckedEvent "u1" 100)]
             ++ UserChecked (mkUserCheckedEvent "u2" 200)
             :: [PasswordChecked (mkPasswordCheckedEvent 300)])
            (NewSessionWriteModel "s1" "org1"))
     = "u2".
Proof.
  assert (Hafter : Forall (fun ev => isUserChecked ev = false)
                          [PasswordChecked (mkPasswordCheckedEvent 300)])
    by (repeat constructor).
  split; [exact Hafter|].
  exact (UserID_last_writer_wins baseReduce
           [Added mkAddedEvent; UserChecked (mkUserCheckedEvent "u1" 100)]
           [PasswordChecked (mkPasswordCheckedEvent 300)]
           (mkUserCheckedEvent "u2" 200)
           (NewSessionWriteModel "s1" "org1") Hafter).
Defined.

(** C1 (as stated) fails: with two user-checked events the first user
    does not win, the second one overwrites it. *)
Lemma UserID_first_writer_loses :
  UserID (replay baseReduce
            [Added mkAddedEvent;
             UserChecked (mkUserCheckedEvent "u1" 100);
             UserChecked (mkUserCheckedEvent "u2" 200)]
            (NewSessionWriteModel "s1" "org1"))
  <> UserChecked_UserID (mkUserCheckedEvent "u1" 100).
Proof. vm_compute. discriminate. Qed.

(** ** Metadata *)

Lemma reduceEvent_Metadata (wm : SessionWriteModel) (e : Event) :
  Metadata (reduceEvent wm e) = Metadata wm.
Proof. destruct e; reflexivity. Qed.

Lemma reduceEvents_Metadata (es : list Event) :
  forall wm, Metadata (reduceEvents es wm) = Metadata wm.
Proof.
  induction es as [|e es IH]; intros wm; [reflexivity|].
  cbn [reduceEvents fold_left] in *.
  now rewrite IH, reduceEvent_Metadata.
Qed.

(** No event sequence changes the metadata map. *)
Lemma replay_Metadata
    {Err : Type} (R : WriteModel -> WriteModel * option Err)
    (es : list Event) (wm : SessionWriteModel) :
  Metadata (replay R es wm) = Metadata wm.
Proof. replay_to_fold R es wm. apply reduceEvents_Metadata. Qed.

(** C2: what the code does with a metadata-set event.  The type switch
    of [Reduce] has no case for it: after folding a session that was
    added and then given the metadata pair ("k", [0x01]), the key is not
    in the metadata map. *)
Theorem metadata_set_not_folded :
  Metadata (replay baseReduce
              [Added mkAddedEvent;
               MetadataSet (mkMetadataSetEvent {[ "k" := [Byte.x01] ]})]
              (NewSessionWriteModel "s1" "org1"))
    !! "k" = None.
Proof. rewrite replay_Metadata. apply lookup_empty. Qed.

(** ** The WebAuthN challenge *)

(** C5: challenge exclusivity.  After folding any sequence that ends in
    a webauthn-checked event the challenge is nil, however many
    webauthn-challenged events came before. *)
Theorem challenge_cleared_by_check
    {Err : Type} (R : WriteModel -> WriteModel * option Err)
    (es : list Event) (e : WebAuthNCheckedEvent) (wm : SessionWriteModel) :
  WebAuthNChallenge (replay R (es ++ [WebAuthNChecked e]) wm) = None.
Proof.
  replay_to_fold R (es ++ [WebAuthNChecked e]) wm.
  now rewrite reduceEvents_snoc.
Qed.

(** ** Termination *)

(** C7: terminate is idempotent.  Folding a sequence with two terminate
    events appended gives state terminated, as with one appended, and
    the two projections agree on every field of the session (they are
    equal once given the same base model). *)
Theorem terminate_idempotent
    {Err : Type} (R : WriteModel -> WriteModel * option Err)
    (es : list Event) (t1 t2 : TerminateEvent) (wm : SessionWriteModel) :
  State (replay R (es ++ [Terminate t1; Terminate t2]) wm) = SessionStateTerminated
  /\ State (replay R (es ++ [Terminate t1]) wm) = SessionStateTerminated
  /\ forall b : WriteModel,
       set_WriteModel b (replay R (es ++ [Terminate t1; Terminate t2]) wm)
       = set_WriteModel b (replay R (es ++ [Terminate t1]) wm).
Proof.
  destruct (replay_fold R (es ++ [Terminate t1; Terminate t2]) wm) as [b2 H2].
  destruct (replay_fold R (es ++ [Terminate t1]) wm) as [b1 H1].
  rewrite H2, H1, !reduceEvents_app.
  repeat split.
Qed.

(** C8: the reducer keeps folding after a terminate event.  Folding
    [added, password-checked(t1), terminate, password-checked(t2)]
    gives state terminated and [PasswordCheckedAt] = t2. *)
Theorem check_after_terminate_is_folded
    {Err : Type} (R : WriteModel -> WriteModel * option Err)
    (t1 t2 : Time) (wm : SessionWriteModel) :
  let s := replay R
             [Added mkAddedEvent;
              PasswordChecked (mkPasswordCheckedEvent t1);
              Terminate mkTerminateEvent;
              PasswordChecked (mkPasswordCheckedEvent t2)] wm in
  State s = SessionStateTerminated /\ PasswordCheckedAt s = t2.
Proof.
  intros s. subst s.
  destruct (replay_fold R
              [Added mkAddedEvent;
               PasswordChecked (mkPasswordCheckedEvent t1);
               Terminate mkTerminateEvent;
               PasswordChecked (mkPasswordCheckedEvent t2)] wm) as [b Hb].
  rewrite Hb. split; reflexivity.
Qed.

(** ** The authentication time *)

Lemma AuthenticationTime_set_WriteModel (b : WriteModel) (wm : SessionWriteModel) :
  AuthenticationTime (set_WriteModel b wm) = AuthenticationTime wm.
Proof. reflexivity. Qed.

(** The loop of [AuthenticationTime] starts from the zero Time and keeps
    the latest check seen: it computes a maximum that includes the zero
    Time. *)
Lemma AuthenticationTime_max (wm : SessionWriteModel) :
  AuthenticationTime wm = Z.max time.zero (latestCheck wm).
Proof.
  unfold AuthenticationTime, latestCheck, After, time.zero.
  generalize (PasswordCheckedAt wm), (WebAuthNCheckedAt wm),
             (TOTPCheckedAt wm), (IntentCheckedAt wm).
  intros p w t i. cbn [fold_left].
  destruct (Z.ltb_spec 0 p);
    [destruct (Z.ltb_spec p w) | destruct (Z.ltb_spec 0 w)];
    match goal with
    | |- context [if ?a <? t then _ else _] => destruct (Z.ltb_spec a t)
    end;
    match goal with
    | |- context [if ?a <? i then _ else _] => destruct (Z.ltb_spec a i)
    end; lia.
Qed.

(** C3 (as amended): [AuthenticationTime] is the maximum of the zero
    Time and the four check times of password, WebAuthN, TOTP and
    intent.  So it is the maximum of the four unless all of them lie
    before the zero Time, it is the zero Time when none of the four is
    set, and [UserCheckedAt] never contributes. *)
Theorem AuthenticationTime_latest_check (wm : SessionWriteModel) :
  AuthenticationTime wm = Z.max time.zero (latestCheck wm)
  /\ (time.zero <= latestCheck wm -> AuthenticationTime wm = latestCheck wm)
  /\ (IsZero (PasswordCheckedAt wm) && IsZero (WebAuthNCheckedAt wm)
      && IsZero (TOTPCheckedAt wm) && IsZero (IntentCheckedAt wm) = true ->
      AuthenticationTime wm = time.zero)
  /\ (forall t : Time, AuthenticationTime (set_UserCheckedAt t wm) = AuthenticationTime wm).
Proof.
  pose proof (AuthenticationTime_max wm) as Hmax.
  repeat split.
  - exact Hmax.
  - intros Hle. rewrite Hmax. lia.
  - unfold IsZero. rewrite !andb_true_iff, !Z.eqb_eq.
    intros [[[Hp Hw] Ht] Hi]. rewrite Hmax.
    unfold latestCheck, time.zero. lia.
Qed.

(** C3 (as stated) fails on check times before the zero Time: after a
    password, a WebAuthN, a TOTP and an intent check, each dated one
    nanosecond before the zero Time, the four timestamps are set and
    their maximum is that instant, but [AuthenticationTime] is the zero
    Time. *)
Lemma AuthenticationTime_not_max_before_zero :
  let s := replay baseReduce
             [Added mkAddedEvent;
              PasswordChecked (mkPasswordCheckedEvent (-1));
              WebAuthNChecked (mkWebAuthNCheckedEvent (-1) true);
              TOTPChecked (mkTOTPCheckedEvent (-1));
              IntentChecked (mkIntentCheckedEvent (-1))]
             (NewSessionWriteModel "s1" "org1") in
  latestCheck s = -1 /\ AuthenticationTime s = time.zero
  /\ AuthenticationTime s <> latestCheck s.
Proof. vm_compute. repeat split; discriminate. Qed.

Lemma reduceEvent_AuthenticationTime_mono (wm : SessionWriteModel) (e : Event) :
  notEarlier wm e -> AuthenticationTime wm <= AuthenticationTime (reduceEvent wm e).
Proof.
  rewrite !AuthenticationTime_max. unfold latestCheck, time.zero.
  destruct e; cbn; intros H; lia.
Qed.

(** C6 (as amended): the authentication time is monotonic for check
    events that do not move their own timestamp backwards.  If the check
    time of the further event is not earlier than the timestamp of the
    same kind held after folding [es], then [AuthenticationTime] after
    [es] followed by the event is not earlier than after [es] alone. *)
Theorem AuthenticationTime_monotone
    {Err : Type} (R : WriteModel -> WriteModel * option Err)
    (es : list Event) (e : Event) (wm : SessionWriteModel) :
  notEarlier (replay R es wm) e ->
  AuthenticationTime (replay R es wm) <= AuthenticationTime (replay R (es ++ [e]) wm).
Proof.
  destruct (replay_fold R es wm) as [b1 H1].
  destruct (replay_fold R (es ++ [e]) wm) as [b2 H2].
  rewrite H1, H2, !AuthenticationTime_set_WriteModel, reduceEvents_snoc.
  intros Hne. apply reduceEvent_AuthenticationTime_mono.
  destruct e; exact Hne.
Qed.

Lemma AuthenticationTime_monotone_witness :
  notEarlier
    (replay baseReduce
       [Added mkAddedEvent; PasswordChecked (mkPasswordCheckedEvent 100)]
       (NewSessionWriteModel "s1" "org1"))
    (PasswordChecked (mkPasswordCheckedEvent 200))
  /\ AuthenticationTime
       (replay baseReduce
          [Added mkAddedEvent; PasswordChecked (mkPasswordCheckedEvent 100)]
          (NewSessionWriteModel "s1" "org1"))
     <= AuthenticationTime
          (replay baseReduce
             ([Added mkAddedEvent; PasswordChecked (mkPasswordCheckedEvent 100)]
              ++ [PasswordChecked (mkPasswordCheckedEvent 200)])
             (NewSessionWriteModel "s1" "org1")).
Proof.
  assert (Hne : notEarlier
                  (replay baseReduce
                     [Added mkAddedEvent; PasswordChecked (mkPasswordCheckedEvent 100)]
                     (NewSessionWriteModel "s1" "org1"))
                  (PasswordChecked (mkPasswordCheckedEvent 200)))
    by (vm_compute; discriminate).
  split; [exact Hne|].
  exact (AuthenticationTime_monotone baseReduce
           [Added mkAddedEvent; PasswordChecked (mkPasswordCheckedEvent 100)]
           (PasswordChecked (mkPasswordCheckedEvent 200))
           (NewSessionWriteModel "s1" "org1") Hne).
Defined.

(** C6 (as stated) fails: a further password check that carries an
    earlier check time than the one folded before makes
    [AuthenticationTime] go back, from 200 to 100. *)
Lemma AuthenticationTime_can_decrease :
  ~ (AuthenticationTime
       (replay baseReduce
          [Added mkAddedEvent; PasswordChecked (mkPasswordCheckedEvent 200)]
          (NewSessionWriteModel "s1" "org1"))
     <= AuthenticationTime
          (replay baseReduce
             ([Added mkAddedEvent; PasswordChecked (mkPasswordCheckedEvent 200)]
              ++ [PasswordChecked (mkPasswordCheckedEvent 100)])
             (NewSessionWriteModel "s1" "org1"))).
Proof. vm_compute. intros H. apply H. reflexivity. Qed.

(** ** The authenticated factors *)

Lemma AuthMethodTypes_set_WriteModel (b : WriteModel) (wm : SessionWriteModel) :
  AuthMethodTypes (set_WriteModel b wm) = AuthMethodTypes wm.
Proof. reflexivity. Qed.

(** The appends of [AuthMethodTypes] build the list that the
    specification describes. *)
Lemma AuthMethodTypes_filter (wm : SessionWriteModel) :
  AuthMethodTypes wm = AuthenticatedFactors_spec wm.
Proof.
  unfold AuthMethodTypes, AuthenticatedFactors_spec, factorChecked.
  cbn [List.filter].
  destruct (IsZero (PasswordCheckedAt wm)), (IsZero (WebAuthNCheckedAt wm)),
    (WebAuthNUserVerified wm), (IsZero (IntentCheckedAt wm)),
    (IsZero (TOTPCheckedAt wm)); reflexivity.
Qed.

Lemma AuthMethodTypes_In (wm : SessionWriteModel) (kind : UserAuthMethodType) :
  In kind (AuthMethodTypes wm) <-> factorChecked wm kind = true.
Proof.
  rewrite AuthMethodTypes_filter. unfold AuthenticatedFactors_spec.
  rewrite List.filter_In. split; [tauto|].
  intros H. split; [|exact H].
  destruct kind; cbn in H; try discriminate; cbn; tauto.
Qed.

(** C4: [AuthMethodTypes] holds exactly the factor kinds whose check
    timestamp is not zero, in the order password, webauthn, intent,
    totp; the WebAuthN factor is passwordless when the user was
    verified and U2F otherwise. *)
Theorem AuthMethodTypes_checked_factors (wm : SessionWriteModel) :
  AuthMethodTypes wm = AuthenticatedFactors_spec wm
  /\ (In UserAuthMethodTypePassword (AuthMethodTypes wm)
      <-> IsZero (PasswordCheckedAt wm) = false)
  /\ (In UserAuthMethodTypePasswordless (AuthMethodTypes wm)
      <-> IsZero (WebAuthNCheckedAt wm) = false /\ WebAuthNUserVerified wm = true)
  /\ (In UserAuthMethodTypeU2F (AuthMethodTypes wm)
      <-> IsZero (WebAuthNCheckedAt wm) = false /\ WebAuthNUserVerified wm = false)
  /\ (In UserAuthMethodTypeIDP (AuthMethodTypes wm)
      <-> IsZero (IntentCheckedAt wm) = false)
  /\ (In UserAuthMethodTypeTOTP (AuthMethodTypes wm)
      <-> IsZero (TOTPCheckedAt wm) = false)
  /\ (forall kind : UserAuthMethodType,
        In kind (AuthMethodTypes wm) ->
        In kind [UserAuthMethodTypePassword; UserAuthMethodTypePasswordless;
                 UserAuthMethodTypeU2F; UserAuthMethodTypeIDP; UserAuthMethodTypeTOTP]).
Proof.
  split; [apply AuthMethodTypes_filter|].
  rewrite !AuthMethodTypes_In. cbn [factorChecked].
  rewrite !andb_true_iff, !negb_true_iff.
  repeat split; try tauto.
  intros kind. rewrite AuthMethodTypes_filter. unfold AuthenticatedFactors_spec.
  rewrite List.filter_In. tauto.
Qed.

(** C10 (as amended): the WebAuthN check is last-writer-wins.  A
    further webauthn-checked event overwrites [WebAuthNCheckedAt] and
    [WebAuthNUserVerified] with its own values.  So after a check with
    the user verified, a later check without user verification is
    never reported as passwordless, and it is reported as U2F exactly
    when its check time is not the zero Time; with the zero Time as
    check time no WebAuthN kind is reported. *)
Theorem WebAuthNUserVerified_last_writer_wins
    {Err : Type} (R : WriteModel -> WriteModel * option Err) (wm : SessionWriteModel) :
  (forall (es : list Event) (e : WebAuthNCheckedEvent),
     let s := replay R (es ++ [WebAuthNChecked e]) wm in
     WebAuthNCheckedAt s = WebAuthNChecked_CheckedAt e
     /\ WebAuthNUserVerified s = WebAuthNChecked_UserVerified e)
  /\ (forall (es1 es2 : list Event) (t1 t2 : Time),
        let verified := WebAuthNChecked (mkWebAuthNCheckedEvent t1 true) in
        let unverified := WebAuthNChecked (mkWebAuthNCheckedEvent t2 false) in
        let s1 := replay R (es1 ++ [verified]) wm in
        let s2 := replay R ((es1 ++ [verified]) ++ es2 ++ [unverified]) wm in
        (In UserAuthMethodTypePasswordless (AuthMethodTypes s1) <-> IsZero t1 = false)
        /\ ~ In UserAuthMethodTypeU2F (AuthMethodTypes s1)
        /\ (In UserAuthMethodTypeU2F (AuthMethodTypes s2) <-> IsZero t2 = false)
        /\ ~ In UserAuthMethodTypePasswordless (AuthMethodTypes s2)).
Proof.
  assert (Hlast : forall (es : list Event) (e : WebAuthNCheckedEvent),
             let s := replay R (es ++ [WebAuthNChecked e]) wm in
             WebAuthNCheckedAt s = WebAuthNChecked_CheckedAt e
             /\ WebAuthNUserVerified s = WebAuthNChecked_UserVerified e).
  { intros es e s. subst s.
    replay_to_fold R (es ++ [WebAuthNChecked e]) wm.
    rewrite reduceEvents_snoc. split; reflexivity. }
  split; [exact Hlast|].
  intros es1 es2 t1 t2 verified unverified s1 s2.
  destruct (Hlast es1 (mkWebAuthNCheckedEvent t1 true)) as [Ht1 Hv1].
  assert (Happ : (es1 ++ [verified]) ++ es2 ++ [unverified]
                 = ((es1 ++ [verified]) ++ es2) ++ [unverified])
    by apply app_assoc.
  destruct (Hlast ((es1 ++ [verified]) ++ es2) (mkWebAuthNCheckedEvent t2 false))
    as [Ht2 Hv2].
  fold unverified in Ht2, Hv2. rewrite <- Happ in Ht2, Hv2.
  fold verified s1 in Ht1, Hv1. fold s2 in Ht2, Hv2.
  cbn [WebAuthNChecked_CheckedAt WebAuthNChecked_UserVerified] in Ht1, Hv1, Ht2, Hv2.
  rewrite !AuthMethodTypes_In. cbn [factorChecked].
  rewrite Ht1, Hv1, Ht2, Hv2.
  rewrite !andb_true_iff, !negb_true_iff. cbn [negb].
  repeat split; intros; intuition congruence.
Qed.

(** C10 (as stated) fails on a check without a check time: after a
    verified WebAuthN check, a later webauthn-checked event with
    userVerified = false and the zero Time as check time overwrites both
    fields, and [AuthMethodTypes] then reports no kind at all, so not
    the U2F kind. *)
Lemma WebAuthN_unverified_zero_time_not_U2F :
  let s := replay baseReduce
             ([Added mkAddedEvent;
               WebAuthNChecked (mkWebAuthNCheckedEvent 100 true)]
              ++ [WebAuthNChecked (mkWebAuthNCheckedEvent time.zero false)])
             (NewSessionWriteModel "s1" "org1") in
  WebAuthNCheckedAt s = time.zero
  /\ WebAuthNUserVerified s = false
  /\ AuthMethodTypes s = []
  /\ ~ In UserAuthMethodTypeU2F (AuthMethodTypes s).
Proof. vm_compute. repeat split. intros H. exact H. Qed.

(** ** The event query *)

(** C9: [Query] selects the events of the session aggregate with the
    model's aggregate id and the ten session event types, and filters on
    the resource owner exactly when the model's resource owner is not
    the empty string. *)
Theorem Query_selects_session_events (wm : SessionWriteModel) :
  let q := Query wm in
  columns q = ColumnsEvent
  /\ queries q = [sessionFilter wm]
  /\ (forall t : EventType, In t (eventTypes (sessionFilter wm)))
  /\ List.NoDup (eventTypes (sessionFilter wm))
  /\ (ResourceOwner (WriteModel_ wm) <> "" ->
      resourceOwner q = Some (ResourceOwner (WriteModel_ wm)))
  /\ (ResourceOwner (WriteModel_ wm) = "" -> resourceOwner q = None).
Proof.
  intros q. subst q. unfold Query.
  destruct (String.eqb_spec (ResourceOwner (WriteModel_ wm)) "") as [Heq|Hne];
    cbn [negb]; repeat split; try reflexivity; try congruence.
  all: try (intros t; destruct t; cbn; tauto).
  all: repeat constructor; cbn; intuition discriminate.
Qed.

(** ** The scenarios of the specification, run on the model *)

Example scenario_password :
  let s := replay baseReduce
             [Added mkAddedEvent;
              UserChecked (mkUserCheckedEvent "u1" 100);
              PasswordChecked (mkPasswordCheckedEvent 200)]
             (NewSessionWriteModel "s1" "org1") in
  AuthMethodTypes s = [UserAuthMethodTypePassword]
  /\ AuthenticationTime s = 200
  /\ State s = SessionStateActive
  /\ UserID s = "u1".
Proof. vm_compute. repeat split. Qed.

Example scenario_passwordless :
  let s := replay baseReduce
             [Added mkAddedEvent;
              WebAuthNChallenged (mkWebAuthNChallengedEvent "c1" [] 1 "rp");
              WebAuthNChecked (mkWebAuthNCheckedEvent 300 true)]
             (NewSessionWriteModel "s1" "org1") in
  WebAuthNChallenge s = None
  /\ AuthMethodTypes s = [UserAuthMethodTypePasswordless].
Proof. vm_compute. repeat split. Qed.

Example scenario_security_key :
  let s := replay baseReduce
             [Added mkAddedEvent;
              WebAuthNChallenged (mkWebAuthNChallengedEvent "c1" [] 1 "rp");
              WebAuthNChecked (mkWebAuthNCheckedEvent 300 false)]
             (NewSessionWriteModel "s1" "org1") in
  AuthMethodTypes s = [UserAuthMethodTypeU2F].
Proof. vm_compute. repeat split. Qed.

Example scenario_challenge_pending :
  WebAuthNChallenge
    (replay baseReduce
       [Added mkAddedEvent;
        WebAuthNChecked (mkWebAuthNCheckedEvent 300 true);
        WebAuthNChallenged (mkWebAuthNChallengedEvent "c2" [] 1 "rp")]
       (NewSessionWriteModel "s1" "org1"))
  = Some (mkWebAuthNChallengeModel "c2" [] 1 "rp").
Proof. reflexivity. Qed.

Example scenario_query_without_owner :
  resourceOwner (Query (NewSessionWriteModel "s1" "")) = None
  /\ resourceOwner (Query (NewSessionWriteModel "s1" "org1")) = Some "org1".
Proof. split; reflexivity. Qed.

(** ** Further properties of the fold *)

Lemma sameSession_fold (b1 b2 : WriteModel) (s1 s2 : SessionWriteModel) :
  s1 = s2 -> sameSession (set_WriteModel b1 s1) (set_WriteModel b2 s2).
Proof. intros -> b. reflexivity. Qed.

(** X2: batching.  Folding a sequence in one run or in two consecutive
    runs, the second on the model that the first returned, gives the
    same session. *)
Theorem replay_in_batches
    {Err : Type} (R : WriteModel -> WriteModel * option Err)
    (es1 es2 : list Event) (wm : SessionWriteModel) :
  sameSession (replay R (es1 ++ es2) wm) (replay R es2 (replay R es1 wm)).
Proof.
  destruct (replay_fold R (es1 ++ es2) wm) as [b H]. rewrite H.
  destruct (replay_fold R es1 wm) as [b1 H1]. rewrite H1.
  destruct (replay_fold R es2 (set_WriteModel b1 (reduceEvents es1 wm))) as [b2 H2].
  rewrite H2, reduceEvents_set_WriteModel, reduceEvents_app.
  intros b'. reflexivity.
Qed.

Lemma reduceEvent_not_folded (wm : SessionWriteModel) (e : Event) :
  isFolded e = false -> reduceEvent wm e = wm.
Proof. destruct e; cbn; congruence. Qed.

Lemma reduceEvents_filter_folded (es : list Event) :
  forall wm, reduceEvents (List.filter isFolded es) wm = reduceEvents es wm.
Proof.
  induction es as [|e es IH]; intros wm; [reflexivity|].
  cbn [List.filter]. destruct (isFolded e) eqn:He.
  - cbn [reduceEvents fold_left] in *. apply IH.
  - rewrite IH. cbn [reduceEvents fold_left].
    now rewrite reduceEvent_not_folded.
Qed.

(** X3: events without a case in the type switch are skipped.  Metadata
    events and events of any other type can be removed from a sequence
    without changing the session that the fold gives; folding no event
    at all leaves the session as it is. *)
Theorem replay_skips_other_events
    {Err : Type} (R : WriteModel -> WriteModel * option Err)
    (es : list Event) (wm : SessionWriteModel) :
  sameSession (replay R es wm) (replay R (List.filter isFolded es) wm)
  /\ sameSession (replay R [] wm) wm.
Proof.
  split.
  - destruct (replay_fold R es wm) as [b H]. rewrite H.
    destruct (replay_fold R (List.filter isFolded es) wm) as [b' H']. rewrite H'.
    apply sameSession_fold. now rewrite reduceEvents_filter_folded.
  - destruct (replay_fold R [] wm) as [b H]. rewrite H.
    intros b'. reflexivity.
Qed.

Lemma reduceEvent_twice (wm : SessionWriteModel) (e : Event) :
  reduceEvent (reduceEvent wm e) e = reduceEvent wm e.
Proof. destruct e; reflexivity. Qed.

(** X4: every reducer is idempotent.  An event that is folded twice in
    a row, as when it is delivered twice, leaves the session that
    folding it once leaves. *)
Theorem replay_repeated_event
    {Err : Type} (R : WriteModel -> WriteModel * option Err)
    (es : list Event) (e : Event) (wm : SessionWriteModel) :
  sameSession (replay R (es ++ [e; e]) wm) (replay R (es ++ [e]) wm).
Proof.
  destruct (replay_fold R (es ++ [e; e]) wm) as [b2 H2]. rewrite H2.
  destruct (replay_fold R (es ++ [e]) wm) as [b1 H1]. rewrite H1.
  apply sameSession_fold.
  rewrite !reduceEvents_app. cbn [reduceEvents fold_left].
  apply reduceEvent_twice.
Qed.

Lemma reduceEvent_commute (wm : SessionWriteModel) (e1 e2 : Event) :
  writes e1 <> writes e2 ->
  reduceEvent (reduceEvent wm e1) e2 = reduceEvent (reduceEvent wm e2) e1.
Proof.
  destruct e1, e2; cbn [writes]; intros H; try reflexivity; now contradiction H.
Qed.

(** X5: events that write different parts of the model commute.  The
    order of two neighbouring events matters only when both write the
    state, both write the user, both write the same check timestamp,
    both belong to the WebAuthN handshake or both set the token. *)
Theorem replay_independent_events_commute
    {Err : Type} (R : WriteModel -> WriteModel * option Err)
    (es : list Event) (e1 e2 : Event) (wm : SessionWriteModel) :
  writes e1 <> writes e2 ->
  sameSession (replay R (es ++ [e1; e2]) wm) (replay R (es ++ [e2; e1]) wm).
Proof.
  intros Hw.
  destruct (replay_fold R (es ++ [e1; e2]) wm) as [b2 H2]. rewrite H2.
  destruct (replay_fold R (es ++ [e2; e1]) wm) as [b1 H1]. rewrite H1.
  apply sameSession_fold.
  rewrite !reduceEvents_app. cbn [reduceEvents fold_left].
  now apply reduceEvent_commute.
Qed.

Lemma replay_independent_events_commute_witness :
  writes (Terminate mkTerminateEvent)
  <> writes (PasswordChecked (mkPasswordCheckedEvent 200))
  /\ sameSession
       (replay baseReduce
          ([Added mkAddedEvent]
           ++ [Terminate mkTerminateEvent; PasswordChecked (mkPasswordCheckedEvent 200)])
          (NewSessionWriteModel "s1" "org1"))
       (replay baseReduce
          ([Added mkAddedEvent]
           ++ [PasswordChecked (mkPasswordCheckedEvent 200); Terminate mkTerminateEvent])
          (NewSessionWriteModel "s1" "org1")).
Proof.
  assert (Hw : writes (Terminate mkTerminateEvent)
               <> writes (PasswordChecked (mkPasswordCheckedEvent 200)))
    by (cbn; discriminate).
  split; [exact Hw|].
  exact (replay_independent_events_commute baseReduce
           [Added mkAddedEvent]
           (Terminate mkTerminateEvent)
           (PasswordChecked (mkPasswordCheckedEvent 200))
           (NewSessionWriteModel "s1" "org1") Hw).
Defined.

(** ** The fields, one by one *)

Lemma reduceEvents_TokenID_kept (es : list Event) :
  forall wm,
    Forall (fun e => isTokenSet e = false) es ->
    TokenID (reduceEvents es wm) = TokenID wm.
Proof.
  induction es as [|e es IH]; intros wm Hes; [reflexivity|].
  inversion Hes as [|? ? He Hes']; subst.
  cbn [reduceEvents fold_left] in *.
  rewrite IH by assumption.
  destruct e; cbn in He; try discriminate; reflexivity.
Qed.

(** X6: the token is last-writer-wins.  After folding a sequence,
    [TokenID] is the token of the last token-set event, and a sequence
    without a token-set event leaves the token as it was. *)
Theorem TokenID_last_token_set
    {Err : Type} (R : WriteModel -> WriteModel * option Err)
    (before after : list Event) (e : TokenSetEvent) (wm : SessionWriteModel) :
  Forall (fun ev => isTokenSet ev = false) after ->
  TokenID (replay R (before ++ TokenSet e :: after) wm) = TokenSet_TokenID e
  /\ TokenID (replay R after wm) = TokenID wm.
Proof.
  intros Hafter. split.
  - replay_to_fold R (before ++ TokenSet e :: after) wm.
    rewrite reduceEvents_app.
    change (reduceEvents (TokenSet e :: after) ?s)
      with (reduceEvents after (reduceTokenSet e s)).
    now rewrite reduceEvents_TokenID_kept.
  - replay_to_fold R after wm. now apply reduceEvents_TokenID_kept.
Qed.

Lemma TokenID_last_token_set_witness :
  Forall (fun ev => isTokenSet ev = false)
         [PasswordChecked (mkPasswordCheckedEvent 300); Terminate mkTerminateEvent]
  /\ TokenID (replay baseReduce
                ([Added mkAddedEvent; TokenSet (mkTokenSetEvent "tok1")]
                 ++ TokenSet (mkTokenSetEvent "tok2")
                 :: [PasswordChecked (mkPasswordCheckedEvent 300);
                     Terminate mkTerminateEvent])
                (NewSessionWriteModel "s1" "org1"))
     = "tok2".
Proof.
  assert (Hafter : Forall (fun ev => isTokenSet ev = false)
                     [PasswordChecked (mkPasswordCheckedEvent 300);
                      Terminate mkTerminateEvent])
    by (repeat constructor).
  split; [exact Hafter|].
  exact (proj1 (TokenID_last_token_set baseReduce
                  [Added mkAddedEvent; TokenSet (mkTokenSetEvent "tok1")]
                  [PasswordChecked (mkPasswordCheckedEvent 300);
                   Terminate mkTerminateEvent]
                  (mkTokenSetEvent "tok2")
                  (NewSessionWriteModel "s1" "org1") Hafter)).
Defined.

Lemma reduceEvents_State_kept (es : list Event) :
  forall wm,
    Forall (fun e => isLifecycle e = false) es ->
    State (reduceEvents es wm) = State wm.
Proof.
  induction es as [|e es IH]; intros wm Hes; [reflexivity|].
  inversion Hes as [|? ? He Hes']; subst.
  cbn [reduceEvents fold_left] in *.
  rewrite IH by assumption.
  destruct e; cbn in He; try discriminate; reflexivity.
Qed.

(** X7: the state follows the last added or terminate event, whatever
    the state was.  When no added or terminate event comes after it, an
    added event leaves the session active, also after a terminate
    event, and a terminate event leaves it terminated; a sequence with
    neither kind of event leaves the state as it was. *)
Theorem State_last_lifecycle_event
    {Err : Type} (R : WriteModel -> WriteModel * option Err)
    (before after : list Event) (a : AddedEvent) (t : TerminateEvent)
    (wm : SessionWriteModel) :
  Forall (fun ev => isLifecycle ev = false) after ->
  State (replay R (before ++ Added a :: after) wm) = SessionStateActive
  /\ State (replay R (before ++ Terminate t :: after) wm) = SessionStateTerminated
  /\ State (replay R after wm) = State wm.
Proof.
  intros Hafter. repeat split.
  - replay_to_fold R (before ++ Added a :: after) wm.
    rewrite reduceEvents_app.
    change (reduceEvents (Added a :: after) ?s)
      with (reduceEvents after (reduceAdded a s)).
    now rewrite reduceEvents_State_kept.
  - replay_to_fold R (before ++ Terminate t :: after) wm.
    rewrite reduceEvents_app.
    change (reduceEvents (Terminate t :: after) ?s)
      with (reduceEvents after (reduceTerminate s)).
    now rewrite reduceEvents_State_kept.
  - replay_to_fold R after wm. now apply reduceEvents_State_kept.
Qed.

Lemma State_last_lifecycle_event_witness :
  Forall (fun ev => isLifecycle ev = false)
         [PasswordChecked (mkPasswordCheckedEvent 300)]
  /\ State (replay baseReduce
              ([Added mkAddedEvent; Terminate mkTerminateEvent]
               ++ Added mkAddedEvent
               :: [PasswordChecked (mkPasswordCheckedEvent 300)])
              (NewSessionWriteModel "s1" "org1"))
     = SessionStateActive.
Proof.
  assert (Hafter : Forall (fun ev => isLifecycle ev = false)
                     [PasswordChecked (mkPasswordCheckedEvent 300)])
    by (repeat constructor).
  split; [exact Hafter|].
  exact (proj1 (State_last_lifecycle_event baseReduce
                  [Added mkAddedEvent; Terminate mkTerminateEvent]
                  [PasswordChecked (mkPasswordCheckedEvent 300)]
                  mkAddedEvent mkTerminateEvent
                  (NewSessionWriteModel "s1" "org1") Hafter)).
Defined.

Lemma reduceEvent_checkedAt_kept (kind : CheckKind) (wm : SessionWriteModel) (e : Event) :
  isCheckOf kind e = false -> checkedAt kind (reduceEvent wm e) = checkedAt kind wm.
Proof. destruct e, kind; cbn; intros H; try discriminate; reflexivity. Qed.

Lemma reduceEvents_checkedAt_kept (kind : CheckKind) (es : list Event) :
  forall wm,
    Forall (fun e => isCheckOf kind e = false) es ->
    checkedAt kind (reduceEvents es wm) = checkedAt kind wm.
Proof.
  induction es as [|e es IH]; intros wm Hes; [reflexivity|].
  inversion Hes as [|? ? He Hes']; subst.
  cbn [reduceEvents fold_left] in *.
  rewrite IH by assumption.
  now apply reduceEvent_checkedAt_kept.
Qed.

Lemma reduceEvent_checkedAt_set (kind : CheckKind) (t : Time)
    (wm : SessionWriteModel) (e : Event) :
  checkOf e = Some (kind, t) -> checkedAt kind (reduceEvent wm e) = t.
Proof.
  destruct e; cbn; intros H; try discriminate;
    injection H as <- <-; reflexivity.
Qed.

(** X8: each of the five check timestamps is last-writer-wins and is
    written by the check events of its own kind only.  After folding a
    sequence, the timestamp of a kind is the check time of the last
    check event of that kind, be it earlier or later than the time held
    before; a sequence without a check of the kind leaves the timestamp
    as it was. *)
Theorem checkedAt_last_check_of_kind
    {Err : Type} (R : WriteModel -> WriteModel * option Err)
    (kind : CheckKind) (t : Time)
    (before after : list Event) (e : Event) (wm : SessionWriteModel) :
  checkOf e = Some (kind, t) ->
  Forall (fun ev => isCheckOf kind ev = false) after ->
  checkedAt kind (replay R (before ++ e :: after) wm) = t
  /\ checkedAt kind (replay R after wm) = checkedAt kind wm.
Proof.
  intros He Hafter.
  destruct (replay_fold R (before ++ e :: after) wm) as [b1 H1].
  destruct (replay_fold R after wm) as [b2 H2].
  rewrite H1, H2.
  assert (Hbase : forall b s, checkedAt kind (set_WriteModel b s) = checkedAt kind s)
    by (intros b s; destruct kind; reflexivity).
  rewrite !Hbase. split.
  - rewrite reduceEvents_app.
    change (reduceEvents (e :: after) ?s) with (reduceEvents after (reduceEvent s e)).
    rewrite reduceEvents_checkedAt_kept by assumption.
    now apply reduceEvent_checkedAt_set.
  - now apply reduceEvents_checkedAt_kept.
Qed.

Lemma checkedAt_last_check_of_kind_witness :
  checkOf (TOTPChecked (mkTOTPCheckedEvent 150)) = Some (TOTPCheck, 150)
  /\ Forall (fun ev => isCheckOf TOTPCheck ev = false)
            [PasswordChecked (mkPasswordCheckedEvent 300); Terminate mkTerminateEvent]
  /\ checkedAt TOTPCheck
       (replay baseReduce
          ([Added mkAddedEvent; TOTPChecked (mkTOTPCheckedEvent 200)]
           ++ TOTPChecked (mkTOTPCheckedEvent 150)
           :: [PasswordChecked (mkPasswordCheckedEvent 300); Terminate mkTerminateEvent])
          (NewSessionWriteModel "s1" "org1"))
     = 150.
Proof.
  assert (Hafter : Forall (fun ev => isCheckOf TOTPCheck ev = false)
                     [PasswordChecked (mkPasswordCheckedEvent 300);
                      Terminate mkTerminateEvent])
    by (repeat constructor).
  split; [reflexivity|]. split; [exact Hafter|].
  exact (proj1 (checkedAt_last_check_of_kind baseReduce TOTPCheck 150
                  [Added mkAddedEvent; TOTPChecked (mkTOTPCheckedEvent 200)]
                  [PasswordChecked (mkPasswordCheckedEvent 300);
                   Terminate mkTerminateEvent]
                  (TOTPChecked (mkTOTPCheckedEvent 150))
                  (NewSessionWriteModel "s1" "org1") eq_refl Hafter)).
Defined.

Lemma reduceEvents_WebAuthNChallenge_kept (es : list Event) :
  forall wm,
    Forall (fun e => isWebAuthNStep e = false) es ->
    WebAuthNChallenge (reduceEvents es wm) = WebAuthNChallenge wm.
Proof.
  induction es as [|e es IH]; intros wm Hes; [reflexivity|].
  inversion Hes as [|? ? He Hes']; subst.
  cbn [reduceEvents fold_left] in *.
  rewrite IH by assumption.
  destruct e; cbn in He; try discriminate; reflexivity.
Qed.

(** X9: the pending challenge is the one of the last webauthn-challenged
    event.  When no event of the WebAuthN handshake comes after it, the
    model holds a challenge, and the login request that [WebAuthNLogin]
    builds from it carries the challenge, the allowed credentials, the
    user verification requirement and the relying party of that event,
    with the object root of the user and the assertion data given; a
    sequence without an event of the handshake leaves the challenge as
    it was. *)
Theorem WebAuthNLogin_of_last_challenge
    {Err : Type} (R : WriteModel -> WriteModel * option Err)
    {ObjectRoot : Type} (human : Human ObjectRoot) (data : list Byte.byte)
    (before after : list Event) (c : WebAuthNChallengedEvent) (wm : SessionWriteModel) :
  Forall (fun ev => isWebAuthNStep ev = false) after ->
  (exists p : WebAuthNChallengeModel,
      WebAuthNChallenge (replay R (before ++ WebAuthNChallenged c :: after) wm) = Some p
      /\ WebAuthNLogin p human data
         = {| Login_ObjectRoot := Human_ObjectRoot human;
              Login_CredentialAssertionData := data;
              Login_Challenge := Challenged_Challenge c;
              Login_AllowedCredentialIDs := Challenged_AllowedCrentialIDs c;
              Login_UserVerification := Challenged_UserVerification c;
              Login_RPID := Challenged_RPID c |})
  /\ WebAuthNChallenge (replay R after wm) = WebAuthNChallenge wm.
Proof.
  intros Hafter. split.
  - eexists. split.
    + replay_to_fold R (before ++ WebAuthNChallenged c :: after) wm.
      rewrite reduceEvents_app.
      change (reduceEvents (WebAuthNChallenged c :: after) ?s)
        with (reduceEvents after (reduceWebAuthNChallenged c s)).
      rewrite reduceEvents_WebAuthNChallenge_kept by assumption.
      reflexivity.
    + reflexivity.
  - replay_to_fold R after wm. now apply reduceEvents_WebAuthNChallenge_kept.
Qed.

Lemma WebAuthNLogin_of_last_challenge_witness :
  Forall (fun ev => isWebAuthNStep ev = false)
         [PasswordChecked (mkPasswordCheckedEvent 300)]
  /\ exists p : WebAuthNChallengeModel,
       WebAuthNChallenge
         (replay baseReduce
            ([Added mkAddedEvent;
              WebAuthNChallenged (mkWebAuthNChallengedEvent "c1" [] 1 "rp")]
             ++ WebAuthNChallenged (mkWebAuthNChallengedEvent "c2" [[Byte.x07]] 2 "rp")
             :: [PasswordChecked (mkPasswordCheckedEvent 300)])
            (NewSessionWriteModel "s1" "org1")) = Some p
       /\ WebAuthNLogin p (mkHuman "user1") [Byte.x2a]
          = mkWebAuthNLogin "user1" [Byte.x2a] "c2" [[Byte.x07]] 2 "rp".
Proof.
  assert (Hafter : Forall (fun ev => isWebAuthNStep ev = false)
                     [PasswordChecked (mkPasswordCheckedEvent 300)])
    by (repeat constructor).
  split; [exact Hafter|].
  exact (proj1 (WebAuthNLogin_of_last_challenge baseReduce
                  (mkHuman "user1") [Byte.x2a]
                  [Added mkAddedEvent;
                   WebAuthNChallenged (mkWebAuthNChallengedEvent "c1" [] 1 "rp")]
                  [PasswordChecked (mkPasswordCheckedEvent 300)]
                  (mkWebAuthNChallengedEvent "c2" [[Byte.x07]] 2 "rp")
                  (NewSessionWriteModel "s1" "org1") Hafter)).
Defined.

(** ** Further properties of the derived facts *)

Lemma reduceEvent_authentication_kept (wm : SessionWriteModel) (e : Event) :
  isAuthCheck e = false ->
  AuthenticationTime (reduceEvent wm e) = AuthenticationTime wm
  /\ AuthMethodTypes (reduceEvent wm e) = AuthMethodTypes wm.
Proof. destruct e; cbn [isAuthCheck]; intros H; try discriminate; split; reflexivity. Qed.

Lemma reduceEvents_authentication_kept (es : list Event) :
  forall wm,
    Forall (fun e => isAuthCheck e = false) es ->
    AuthenticationTime (reduceEvents es wm) = AuthenticationTime wm
    /\ AuthMethodTypes (reduceEvents es wm) = AuthMethodTypes wm.
Proof.
  induction es as [|e es IH]; intros wm Hes; [split; reflexivity|].
  inversion Hes as [|? ? He Hes']; subst.
  change (reduceEvents (e :: es) wm) with (reduceEvents es (reduceEvent wm e)).
  destruct (IH (reduceEvent wm e) Hes') as [-> ->].
  now apply reduceEvent_authentication_kept.
Qed.

(** X10: only the password, WebAuthN, TOTP and intent checks
    authenticate.  A sequence without one of these four checks changes
    neither [AuthenticationTime] nor [AuthMethodTypes]; folded into a new
    model, such a sequence, user checks included, gives the zero Time
    and no factor. *)
Theorem authentication_needs_a_check
    {Err : Type} (R : WriteModel -> WriteModel * option Err)
    (es : list Event) (wm : SessionWriteModel) (sessionID resourceOwner : string) :
  Forall (fun ev => isAuthCheck ev = false) es ->
  AuthenticationTime (replay R es wm) = AuthenticationTime wm
  /\ AuthMethodTypes (replay R es wm) = AuthMethodTypes wm
  /\ AuthenticationTime (replay R es (NewSessionWriteModel sessionID resourceOwner))
     = time.zero
  /\ AuthMethodTypes (replay R es (NewSessionWriteModel sessionID resourceOwner)) = [].
Proof.
  intros Hes.
  destruct (replay_fold R es wm) as [b1 H1].
  destruct (replay_fold R es (NewSessionWriteModel sessionID resourceOwner)) as [b2 H2].
  rewrite H1, H2, !AuthenticationTime_set_WriteModel, !AuthMethodTypes_set_WriteModel.
  destruct (reduceEvents_authentication_kept es wm Hes) as [-> ->].
  destruct (reduceEvents_authentication_kept es
              (NewSessionWriteModel sessionID resourceOwner) Hes) as [-> ->].
  repeat split.
Qed.

Lemma authentication_needs_a_check_witness :
  Forall (fun ev => isAuthCheck ev = false)
         [Added mkAddedEvent; UserChecked (mkUserCheckedEvent "u1" 100);
          TokenSet (mkTokenSetEvent "tok1")]
  /\ AuthMethodTypes
       (replay baseReduce
          [Added mkAddedEvent; UserChecked (mkUserCheckedEvent "u1" 100);
           TokenSet (mkTokenSetEvent "tok1")]
          (NewSessionWriteModel "s1" "org1")) = [].
Proof.
  assert (Hes : Forall (fun ev => isAuthCheck ev = false)
                  [Added mkAddedEvent; UserChecked (mkUserCheckedEvent "u1" 100);
                   TokenSet (mkTokenSetEvent "tok1")])
    by (repeat constructor).
  split; [exact Hes|].
  exact (proj2 (proj2 (proj2
           (authentication_needs_a_check baseReduce
              [Added mkAddedEvent; UserChecked (mkUserCheckedEvent "u1" 100);
               TokenSet (mkTokenSetEvent "tok1")]
              (NewSessionWriteModel "s1" "org1") "s1" "org1" Hes)))).
Defined.

(** X11: [AuthenticationTime] is a time the model holds.  It is never
    before the zero Time nor before any of the four check timestamps,
    and it is the zero Time or one of the four timestamps. *)
Theorem AuthenticationTime_bounds (wm : SessionWriteModel) :
  time.zero <= AuthenticationTime wm
  /\ PasswordCheckedAt wm <= AuthenticationTime wm
  /\ WebAuthNCheckedAt wm <= AuthenticationTime wm
  /\ TOTPCheckedAt wm <= AuthenticationTime wm
  /\ IntentCheckedAt wm <= AuthenticationTime wm
  /\ In (AuthenticationTime wm)
        [time.zero; PasswordCheckedAt wm; WebAuthNCheckedAt wm;
         TOTPCheckedAt wm; IntentCheckedAt wm].
Proof.
  rewrite AuthenticationTime_max. unfold latestCheck, time.zero. cbn [In].
  repeat split; lia.
Qed.

(** X12: an authentication time comes with a factor.  When
    [AuthenticationTime] is not the zero Time, [AuthMethodTypes] reports
    at least one kind. *)
Theorem AuthenticationTime_has_factor (wm : SessionWriteModel) :
  AuthenticationTime wm <> time.zero ->
  exists kind : UserAuthMethodType, In kind (AuthMethodTypes wm).
Proof.
  rewrite AuthenticationTime_max. unfold latestCheck, time.zero. intros Hnz.
  assert (H : PasswordCheckedAt wm <> 0 \/ WebAuthNCheckedAt wm <> 0
              \/ TOTPCheckedAt wm <> 0 \/ IntentCheckedAt wm <> 0) by lia.
  destruct H as [H|[H|[H|H]]]; apply Z.eqb_neq in H.
  - exists UserAuthMethodTypePassword.
    apply AuthMethodTypes_In. cbn. unfold IsZero. now rewrite H.
  - destruct (WebAuthNUserVerified wm) eqn:Hv.
    + exists UserAuthMethodTypePasswordless.
      apply AuthMethodTypes_In. cbn. unfold IsZero. now rewrite H, Hv.
    + exists UserAuthMethodTypeU2F.
      apply AuthMethodTypes_In. cbn. unfold IsZero. now rewrite H, Hv.
  - exists UserAuthMethodTypeTOTP.
    apply AuthMethodTypes_In. cbn. unfold IsZero. now rewrite H.
  - exists UserAuthMethodTypeIDP.
    apply AuthMethodTypes_In. cbn. unfold IsZero. now rewrite H.
Qed.

Lemma AuthenticationTime_has_factor_witness :
  AuthenticationTime
    (replay baseReduce
       [Added mkAddedEvent; TOTPChecked (mkTOTPCheckedEvent 150)]
       (NewSessionWriteModel "s1" "org1")) <> time.zero
  /\ exists kind : UserAuthMethodType,
       In kind (AuthMethodTypes
                  (replay baseReduce
                     [Added mkAddedEvent; TOTPChecked (mkTOTPCheckedEvent 150)]
                     (NewSessionWriteModel "s1" "org1"))).
Proof.
  assert (Hnz : AuthenticationTime
                  (replay baseReduce
                     [Added mkAddedEvent; TOTPChecked (mkTOTPCheckedEvent 150)]
                     (NewSessionWriteModel "s1" "org1")) <> time.zero)
    by (vm_compute; discriminate).
  split; [exact Hnz|].
  exact (AuthenticationTime_has_factor
           (replay baseReduce
              [Added mkAddedEvent; TOTPChecked (mkTOTPCheckedEvent 150)]
              (NewSessionWriteModel "s1" "org1")) Hnz).
Defined.

(** X13: the shape of [AuthMethodTypes].  It lists no kind twice, holds
    at most four kinds, never holds both WebAuthN kinds, passwordless
    and U2F, and is empty exactly when none of the four check
    timestamps is set. *)
Theorem AuthMethodTypes_shape (wm : SessionWriteModel) :
  List.NoDup (AuthMethodTypes wm)
  /\ (length (AuthMethodTypes wm) <= 4)%nat
  /\ ~ (In UserAuthMethodTypePasswordless (AuthMethodTypes wm)
        /\ In UserAuthMethodTypeU2F (AuthMethodTypes wm))
  /\ (AuthMethodTypes wm = []
      <-> IsZero (PasswordCheckedAt wm) && IsZero (WebAuthNCheckedAt wm)
          && IsZero (TOTPCheckedAt wm) && IsZero (IntentCheckedAt wm) = true).
Proof.
  unfold AuthMethodTypes.
  destruct (IsZero (PasswordCheckedAt wm)), (IsZero (WebAuthNCheckedAt wm)),
    (WebAuthNUserVerified wm), (IsZero (IntentCheckedAt wm)),
    (IsZero (TOTPCheckedAt wm)); cbn;
    (split; [repeat constructor; cbn; intuition discriminate|]);
    (split; [lia|]);
    (split; [intuition discriminate|]);
    split; intros H; try discriminate; reflexivity.
Qed.
